(** * open_flamingo: the Flamingo orchestrator (src/open_flamingo/flamingo.py)

    A shallow embedding of [Flamingo.forward] and [Flamingo.generate].

    The class is glue: it calls a vision encoder, a language model and the
    language model's Perceiver resampler, stores the visual features on the
    decoder layers and clears them afterwards.  The embedding keeps the two
    things the Python code can observe or change:

    - the conditioning slot of every decoder layer (mutable state reached
      through [self.lang_encoder.model.decoder.layers]);
    - the calls made on the collaborating modules, in order, with their
      arguments.

    Tensors are never inspected by the class, so they are values of an
    abstract type; a tensor object passed to several layers is the same
    value in each of them. *)

From Stdlib Require Import ZArith QArith List String.
From stdpp Require Import base tactics option list.

Local Open Scope Z_scope.

(** ** The tensor library and the Python runtime *)

(** What the class takes from torch and transformers: tensors, Python floats
    (only handed on, never computed with), the output objects of the two
    models, exceptions, and the attribute [last_hidden_state] of the vision
    encoder's output. *)
Class Torch : Type := {
  Tensor : Type;
  Float : Type;
  VisionOutput : Type;
  ModelOutput : Type;
  Exn : Type;
  last_hidden_state : VisionOutput -> Tensor
}.

Section Model.
Context `{Torch}.

(** A Python call either returns a value or raises. *)
Inductive outcome (A : Type) : Type :=
| Returned (a : A)
| Raised (e : Exn).
#[global] Arguments Returned {A} a.
#[global] Arguments Raised {A} e.

(** ** Conditioning state of the decoder layers *)

(** Modelled from the spec: the per-layer conditioning flag of a decoder
    layer (the layer class of flamingo_lm.py / helpers.py is not in src):
    "mutable state attached to each decoder layer, holding either
    unconditioned or conditioned on tensor T". *)
Inductive conditioning : Type :=
| Unconditioned
| ConditionedOn (t : Tensor).

(** [self.lang_encoder.model.decoder.layers]: the layers in order; a layer
    object is referred to by its position in the list. *)
Abbreviation Layers := (list conditioning).

(** Keyword arguments of the language model's [generate] call
    (flamingo.py, lines 68-79), under the names of the callee. *)
Record GenerateKwargs : Type := {
  kw_attention_mask : option Tensor;
  kw_max_length : Z;
  kw_eos_token_id : Z;
  kw_num_beams : Z;
  kw_temperature : Float;
  kw_top_k : Z;
  kw_top_p : Float;
  kw_no_repeat_ngram_size : Z;
  kw_length_penalty : Float;
  kw_num_return_sequences : Z;
  kw_do_sample : bool;
  kw_early_stopping : bool
}.

(** A call made by [forward] or [generate] on a collaborating module. *)
Inductive call : Type :=
| CallVisionEncoder (vision_x : Tensor)
| CallPerceiverResampler (x : Tensor)
| CallCondition (layer : nat) (x : Tensor)
| CallLangEncoder (vision_attended lang_x : Tensor)
                  (attention_mask labels : option Tensor)
| CallGenerate (inputs : Tensor) (kwargs : GenerateKwargs)
| CallClearConditionedLayers.

Definition is_resampler_call (c : call) : bool :=
  match c with CallPerceiverResampler _ => true | _ => false end.

Definition is_condition_call (c : call) : bool :=
  match c with CallCondition _ _ => true | _ => false end.

Definition is_generate_call (c : call) : bool :=
  match c with CallGenerate _ _ => true | _ => false end.

Definition is_vision_encoder_call (c : call) : bool :=
  match c with CallVisionEncoder _ => true | _ => false end.

(** ** The collaborating modules *)

(** [OPTForCausalLMFlamingo] as the class uses it.  [lm_call] is the
    module's [__call__]: it may set the layers' conditioning.  [lm_generate]
    is the generation routine of the transformers library: it runs the
    decoder layers, which read their conditioning. *)
Record OPTForCausalLMFlamingo : Type := {
  num_hidden_layers : nat;
  perceiver_resampler : Tensor -> outcome Tensor;
  lm_call : Tensor -> Tensor -> option Tensor -> option Tensor ->
            Layers -> outcome ModelOutput * Layers;
  lm_generate : Tensor -> GenerateKwargs -> Layers -> outcome Tensor
}.

(** The attributes set by [Flamingo.__init__] (lines 24-25). *)
Record Flamingo : Type := {
  vision_encoder : Tensor -> outcome VisionOutput;
  lang_encoder : OPTForCausalLMFlamingo
}.

(** ** Computations: layer state, exceptions and the calls made *)

(** The result of running a method from a given layer state.  When the
    method raises, [layers_after] is the state at the raise: Python does not
    undo the assignments made before it. *)
Record run (A : Type) : Type := Run {
  res : outcome A;
  layers_after : Layers;
  calls : list call
}.
#[global] Arguments Run {A} res layers_after calls.
#[global] Arguments res {A} r.
#[global] Arguments layers_after {A} r.
#[global] Arguments calls {A} r.

Definition M (A : Type) : Type := Layers -> run A.

#[global] Instance M_ret : MRet M := fun A (a : A) ls => Run (Returned a) ls [].

#[global] Instance M_bind : MBind M := fun A B (k : A -> M B) (m : M A) ls =>
  let r := m ls in
  match res r with
  | Returned a =>
      let r' := k a (layers_after r) in
      Run (res r') (layers_after r') (calls r ++ calls r')
  | Raised e => Run (Raised e) (layers_after r) (calls r)
  end.

(** A call that cannot touch the layers. *)
Definition invoke {A : Type} (c : call) (o : outcome A) : M A :=
  fun ls => Run o ls [c].

(** A call that reads the layers. *)
Definition invoke_reading {A : Type} (c : call) (f : Layers -> outcome A) : M A :=
  fun ls => Run (f ls) ls [c].

(** A call that may change the layers. *)
Definition invoke_updating {A : Type} (c : call)
    (f : Layers -> outcome A * Layers) : M A :=
  fun ls => Run (f ls).1 (f ls).2 [c].

(** [for x in xs: body(x)] *)
Fixpoint for_each {A : Type} (body : A -> M unit) (xs : list A) : M unit :=
  match xs with
  | [] => mret tt
  | x :: xs' => body x ;; for_each body xs'
  end.

(** The layer objects of [self.lang_encoder.model.decoder.layers]. *)
Definition decoder_layers : M (list nat) :=
  fun ls => Run (Returned (seq 0 (length ls))) ls [].

(** ** Methods of the language model that are not in src *)

(** Modelled from the spec: [layer.condition(features)] of a decoder layer
    (flamingo_lm.py / helpers.py, not in src): "condition(features) stores
    the tensor for use by that layer's cross-attention sublayer on every
    subsequent invocation until clear() is called". *)
Definition condition (layer : nat) (x : Tensor) : M unit :=
  fun ls => Run (Returned tt) (<[layer := ConditionedOn x]> ls)
                [CallCondition layer x].

(** The layer state with every stored tensor removed. *)
Definition cleared (ls : Layers) : Layers := (fun _ => Unconditioned) <$> ls.

(** Modelled from the spec: [clear_conditioned_layers] of the language model
    (flamingo_lm.py, not in src): "remove the stored visual features from
    all decoder layers". *)
Definition clear_conditioned_layers : M unit :=
  fun ls => Run (Returned tt) (cleared ls) [CallClearConditionedLayers].

(** Modelled from the spec: [init_flamingo] of the language model
    (flamingo_lm.py, not in src), as far as the layer state goes: the layers
    of a freshly constructed model hold no visual features (the conditioning
    is "set at the start of a forward/generate call"). *)
Definition init_flamingo (lm : OPTForCausalLMFlamingo) : Layers :=
  replicate (num_hidden_layers lm) Unconditioned.

(** ** The class Flamingo *)

(** [Flamingo.__init__] (lines 17-26): keeps the two modules and calls
    [init_flamingo] on the language model. *)
Definition Flamingo_init (vision_encoder : Tensor -> outcome VisionOutput)
    (lang_encoder : OPTForCausalLMFlamingo) : Flamingo * Layers :=
  ({| vision_encoder := vision_encoder; lang_encoder := lang_encoder |},
   init_flamingo lang_encoder).

(** [Flamingo.forward] (lines 28-33). *)
Definition forward (self : Flamingo) (vision_x lang_x : Tensor)
    (attention_mask labels : option Tensor) : M ModelOutput :=
  vision_attended ← invoke (CallVisionEncoder vision_x)
                           (vision_encoder self vision_x);
  output ← invoke_updating
             (CallLangEncoder (last_hidden_state vision_attended) lang_x
                              attention_mask labels)
             (lm_call (lang_encoder self) (last_hidden_state vision_attended)
                      lang_x attention_mask labels);
  clear_conditioned_layers ;;
  mret output.

(** [Flamingo.generate] (lines 35-83). *)
Definition generate (self : Flamingo) (vision_x lang_x : Tensor)
    (max_length eoc_token_id : Z) (attention_mask : option Tensor)
    (num_beams : Z) (temperature : Float) (top_k : Z) (top_p : Float)
    (no_repeat_ngram_size : Z) (length_penalty : Float)
    (num_return_sequences : Z) (do_sample early_stopping : bool) : M Tensor :=
  vision_attended ← (out ← invoke (CallVisionEncoder vision_x)
                                  (vision_encoder self vision_x);
                     mret (last_hidden_state out));
  vision_attended ← invoke (CallPerceiverResampler vision_attended)
                           (perceiver_resampler (lang_encoder self)
                                                vision_attended);
  layers ← decoder_layers;
  for_each (fun layer => condition layer vision_attended) layers ;;
  output ← (let kwargs :=
              {| kw_attention_mask := attention_mask;
                 kw_max_length := max_length;
                 kw_eos_token_id := eoc_token_id;
                 kw_num_beams := num_beams;
                 kw_temperature := temperature;
                 kw_top_k := top_k;
                 kw_top_p := top_p;
                 kw_no_repeat_ngram_size := no_repeat_ngram_size;
                 kw_length_penalty := length_penalty;
                 kw_num_return_sequences := num_return_sequences;
                 kw_do_sample := do_sample;
                 kw_early_stopping := early_stopping |} in
            invoke_reading (CallGenerate lang_x kwargs)
                           (lm_generate (lang_encoder self) lang_x kwargs));
  clear_conditioned_layers ;;
  mret output.

(** ** Calls on a model instance *)

(** A call of one of the two public methods, with its arguments. *)
Inductive method_call : Type :=
| Forward (vision_x lang_x : Tensor) (attention_mask labels : option Tensor)
| Generate (vision_x lang_x : Tensor) (max_length eoc_token_id : Z)
           (attention_mask : option Tensor)
           (num_beams : Z) (temperature : Float) (top_k : Z) (top_p : Float)
           (no_repeat_ngram_size : Z) (length_penalty : Float)
           (num_return_sequences : Z) (do_sample early_stopping : bool).

(** Running a method call: the value is the language model's output for
    [forward] and the token tensor for [generate]. *)
Definition call_method (self : Flamingo) (c : method_call)
    : M (ModelOutput + Tensor) :=
  match c with
  | Forward vision_x lang_x attention_mask labels =>
      output ← forward self vision_x lang_x attention_mask labels;
      mret (inl output)
  | Generate vision_x lang_x max_length eoc_token_id attention_mask
             num_beams temperature top_k top_p no_repeat_ngram_size
             length_penalty num_return_sequences do_sample early_stopping =>
      output ← generate self vision_x lang_x max_length eoc_token_id
                 attention_mask num_beams temperature top_k top_p
                 no_repeat_ngram_size length_penalty num_return_sequences
                 do_sample early_stopping;
      mret (inr output)
  end.

(** Method calls made one after the other on the same instance, as the
    statements of a caller: the first exception ends the sequence, otherwise
    the values come back in order. *)
Fixpoint call_each (self : Flamingo) (cs : list method_call)
    : M (list (ModelOutput + Tensor)) :=
  match cs with
  | [] => mret []
  | c :: cs' =>
      value ← call_method self c;
      values ← call_each self cs';
      mret (value :: values)
  end.

End Model.

Abbreviation Layers := (list conditioning).

(** ** A small concrete instance

    Tensors are integers, so that what the language model reads from the
    layers shows in its output. *)
Module Demo.

Definition torch : Torch := {|
  Tensor := Z;
  Float := Q;
  VisionOutput := Z;
  ModelOutput := Z;
  Exn := string;
  last_hidden_state := fun out => out + 1
|}.

#[local] Existing Instance torch.

(** What the decoder layers contribute: the sum of the stored tensors. *)
Definition attended (ls : Layers) : Z :=
  foldr (fun l acc => match l with
                      | Unconditioned => acc
                      | ConditionedOn t => t + acc
                      end) 0 ls.

(** Rejects negative images. *)
Definition vision (vision_x : Z) : outcome Z :=
  if vision_x <? 0 then Raised "vision: bad image"%string
  else Returned (10 * vision_x).

(** Halves its input and rejects odd ones. *)
Definition resampler (x : Z) : outcome Z :=
  if Z.odd x then Returned (x / 2) else Raised "resampler: bad shape"%string.

(** Rejects negative token batches after the layers have been set. *)
Definition causal_lm (lang_x : Z) (attention_mask labels : option Z)
    (ls : Layers) : outcome Z :=
  if lang_x <? 0 then Raised "lm: index out of range"%string
  else Returned (lang_x + attended ls).

(** Rejects a negative [max_length]. *)
Definition hf_generate (inputs : Z) (kwargs : GenerateKwargs)
    (ls : Layers) : outcome Z :=
  if kw_max_length kwargs <? 0 then Raised "generate: max_length"%string
  else Returned (inputs + attended ls + kw_eos_token_id kwargs).

(** An example of the language model's [__call__]: it stores the features
    on every layer, then runs the causal language model. *)
Definition distributing_lm_call (x lang_x : Z) (attention_mask labels : option Z)
    (ls : Layers) : outcome Z * Layers :=
  let ls' := (fun _ => ConditionedOn x) <$> ls in
  (causal_lm lang_x attention_mask labels ls', ls').

Definition lm : OPTForCausalLMFlamingo := {|
  num_hidden_layers := 2;
  perceiver_resampler := resampler;
  lm_call := distributing_lm_call;
  lm_generate := hf_generate
|}.



Definition model : Flamingo := (Flamingo_init vision lm).1.
Definition fresh : Layers := (Flamingo_init vision lm).2.

(** A vision encoder whose features the resampler rejects. *)
Definition vision_misshapen (vision_x : Z) : outcome Z :=
  Returned (10 * vision_x + 1).

Definition model_misshapen : Flamingo := (Flamingo_init vision_misshapen lm).1.


(** [generate] with the default values of the optional arguments
    (line 35). *)
Definition generate_default (vision_x lang_x max_length eoc_token_id : Z)
    : M Z :=
  generate model vision_x lang_x max_length eoc_token_id None
           1 1%Q 0 1%Q 0 1%Q 1 false false.

Definition Generate_default (vision_x lang_x max_length eoc_token_id : Z)
    : method_call :=
  Generate vision_x lang_x max_length eoc_token_id None
           1 1%Q 0 1%Q 0 1%Q 1 false false.

End Demo.

(** * Properties *)

Section Properties.
Context `{Torch}.

(** ** Running computations step by step *)

Lemma bind_returned {A B : Type} (m : M A) (k : A -> M B) (ls : Layers) (a : A) :
  res (m ls) = Returned a ->
  (m ≫= k) ls =
  Run (res (k a (layers_after (m ls))))
      (layers_after (k a (layers_after (m ls))))
      (calls (m ls) ++ calls (k a (layers_after (m ls)))).
Proof.
  intros Hm. unfold mbind, M_bind. rewrite Hm. reflexivity.
Qed.

Lemma bind_raised {A B : Type} (m : M A) (k : A -> M B) (ls : Layers) (e : Exn) :
  res (m ls) = Raised e ->
  (m ≫= k) ls = Run (Raised e) (layers_after (m ls)) (calls (m ls)).
Proof.
  intros Hm. unfold mbind, M_bind. rewrite Hm. reflexivity.
Qed.

Lemma bind_mret_run {A B : Type} (m : M A) (f : A -> B) (ls : Layers) :
  (a ← m; mret (f a)) ls =
  Run (match res (m ls) with
       | Returned a => Returned (f a)
       | Raised e => Raised e
       end)
      (layers_after (m ls)) (calls (m ls)).
Proof.
  unfold mbind, M_bind. destruct (res (m ls)); [|done].
  cbn. rewrite app_nil_r. done.
Qed.

Lemma cleared_replicate (ls : Layers) :
  cleared ls = replicate (length ls) Unconditioned.
Proof. apply const_fmap. reflexivity. Qed.

Lemma length_cleared (ls : Layers) : length (cleared ls) = length ls.
Proof. unfold cleared. apply length_fmap. Qed.

Lemma Forall_unconditioned_replicate (n : nat) :
  Forall (fun l => l = Unconditioned) (replicate n Unconditioned).
Proof. apply Forall_replicate. reflexivity. Qed.

Lemma Forall_unconditioned_cleared (ls : Layers) :
  Forall (fun l => l = Unconditioned) (cleared ls).
Proof. rewrite cleared_replicate. apply Forall_unconditioned_replicate. Qed.

Lemma unconditioned_holds_no_tensor (ls : Layers) (x : Tensor) :
  Forall (fun l => l = Unconditioned) ls -> ConditionedOn x ∉ ls.
Proof.
  intros Hall Hin. rewrite Forall_forall in Hall.
  specialize (Hall _ Hin). discriminate Hall.
Qed.

(** ** The conditioning loop of [generate] (lines 63-64) *)

(** After the loop has visited the layers [i, i + k), these hold the tensor
    and the others are as before. *)
Lemma for_each_condition_seq (x : Tensor) (k : nat) :
  forall (i : nat) (ls : Layers),
    (i + k <= length ls)%nat ->
    for_each (fun layer => condition layer x) (seq i k) ls =
    Run (Returned tt)
        (take i ls ++ replicate k (ConditionedOn x) ++ drop (i + k) ls)
        ((fun layer => CallCondition layer x) <$> seq i k).
Proof.
  induction k as [|k IH]; intros i ls Hik.
  - cbn. rewrite Nat.add_0_r, take_drop. reflexivity.
  - cbn [seq for_each].
    rewrite (bind_returned _ _ _ tt) by reflexivity.
    cbn [condition layers_after calls res].
    rewrite IH by (rewrite length_insert; lia).
    cbn [layers_after calls res fmap list_fmap app].
    f_equal.
    rewrite (take_S_r _ i (ConditionedOn x))
      by (apply list_lookup_insert_eq; lia).
    rewrite take_insert_ge by lia.
    rewrite drop_insert_lt by lia.
    rewrite <- app_assoc. cbn [app replicate].
    replace (i + S k)%nat with (S i + k)%nat by lia.
    reflexivity.
Qed.

(** The whole loop: every layer holds the tensor, one [condition] call per
    layer, in the order of the layers. *)
Lemma condition_all_layers (x : Tensor) (ls : Layers) :
  for_each (fun layer => condition layer x) (seq 0 (length ls)) ls =
  Run (Returned tt)
      (replicate (length ls) (ConditionedOn x))
      ((fun layer => CallCondition layer x) <$> seq 0 (length ls)).
Proof.
  rewrite for_each_condition_seq by lia.
  cbn [take app Nat.add].
  rewrite drop_all, app_nil_r. reflexivity.
Qed.

Ltac run_method :=
  cbv [forward generate call_method mbind M_bind mret M_ret invoke
       invoke_reading invoke_updating decoder_layers
       clear_conditioned_layers res layers_after calls].

Variable self : Flamingo.

(** ** Runs of [forward] *)

Section RunsOfForward.
Variables (vision_x lang_x : Tensor) (attention_mask labels : option Tensor).

Local Abbreviation fwd :=
  (forward self vision_x lang_x attention_mask labels).
Local Abbreviation lm_on v :=
  (lm_call (lang_encoder self) (last_hidden_state v) lang_x
           attention_mask labels).

Lemma forward_vision_raised (ls : Layers) (e : Exn) :
  vision_encoder self vision_x = Raised e ->
  fwd ls = Run (Raised e) ls [CallVisionEncoder vision_x].
Proof. intros Hv. run_method. rewrite Hv. reflexivity. Qed.

Lemma forward_lm_raised (ls : Layers) (v : VisionOutput) (e : Exn) :
  vision_encoder self vision_x = Returned v ->
  (lm_on v ls).1 = Raised e ->
  fwd ls =
  Run (Raised e) (lm_on v ls).2
      [CallVisionEncoder vision_x;
       CallLangEncoder (last_hidden_state v) lang_x attention_mask labels].
Proof. intros Hv Hl. run_method. rewrite Hv. rewrite Hl. reflexivity. Qed.

Lemma forward_returned (ls : Layers) (v : VisionOutput) (out : ModelOutput) :
  vision_encoder self vision_x = Returned v ->
  (lm_on v ls).1 = Returned out ->
  fwd ls =
  Run (Returned out) (cleared (lm_on v ls).2)
      [CallVisionEncoder vision_x;
       CallLangEncoder (last_hidden_state v) lang_x attention_mask labels;
       CallClearConditionedLayers].
Proof. intros Hv Hl. run_method. rewrite Hv. rewrite Hl. reflexivity. Qed.

(** The possible runs of [forward], by the first module that raises. *)
Lemma forward_cases (ls : Layers) :
  (exists e, vision_encoder self vision_x = Raised e) \/
  (exists v e,
      vision_encoder self vision_x = Returned v /\ (lm_on v ls).1 = Raised e) \/
  (exists v out,
      vision_encoder self vision_x = Returned v /\
      (lm_on v ls).1 = Returned out).
Proof.
  destruct (vision_encoder self vision_x) as [v|e] eqn:Hv; [|eauto].
  destruct (lm_on v ls).1 as [out|e] eqn:Hl; eauto 7.
Qed.

Lemma forward_returned_inv (ls : Layers) (out : ModelOutput) :
  res (fwd ls) = Returned out ->
  exists v, vision_encoder self vision_x = Returned v /\
            (lm_on v ls).1 = Returned out.
Proof.
  intros Hres.
  destruct (forward_cases ls) as [[e Hv]|[(v & e & Hv & Hl)|(v & o & Hv & Hl)]].
  - rewrite (forward_vision_raised _ _ Hv) in Hres. discriminate.
  - rewrite (forward_lm_raised _ _ _ Hv Hl) in Hres. discriminate.
  - rewrite (forward_returned _ _ _ Hv Hl) in Hres. cbn in Hres.
    exists v. split; [done|]. congruence.
Qed.

(** C2. For every input on which the vision encoder and the language model
    return, [forward] makes exactly three calls, in this order: the vision
    encoder on [vision_x]; the language model on the encoder's
    [last_hidden_state] together with [lang_x], [attention_mask] and
    [labels]; [clear_conditioned_layers].  It returns the language model's
    output as it is, and the layers are left cleared. *)
Theorem forward_steps (ls : Layers) (v : VisionOutput) (out : ModelOutput) :
  vision_encoder self vision_x = Returned v ->
  (lm_on v ls).1 = Returned out ->
  let r := forward self vision_x lang_x attention_mask labels ls in
  calls r =
    [CallVisionEncoder vision_x;
     CallLangEncoder (last_hidden_state v) lang_x attention_mask labels;
     CallClearConditionedLayers] /\
  res r = Returned out /\
  layers_after r = cleared (lm_on v ls).2.
Proof.
  intros Hv Hl r. subst r. rewrite (forward_returned _ _ _ Hv Hl). done.
Qed.

(** C8. [forward] adds no check, wrapping, retry or recovery of its own.
    When the vision encoder raises [e], [forward] raises the same [e] after
    that single call; when the language model raises [e], [forward] raises
    the same [e] after one call to each module; and whenever [forward]
    raises, the exception is the one raised by the vision encoder or by the
    language model. *)
Theorem forward_propagates_errors (ls : Layers) (e : Exn) :
  let r := forward self vision_x lang_x attention_mask labels ls in
  (vision_encoder self vision_x = Raised e ->
   r = Run (Raised e) ls [CallVisionEncoder vision_x]) /\
  (forall v,
      vision_encoder self vision_x = Returned v ->
      (lm_on v ls).1 = Raised e ->
      r =
      Run (Raised e) (lm_on v ls).2
          [CallVisionEncoder vision_x;
           CallLangEncoder (last_hidden_state v) lang_x attention_mask
                           labels]) /\
  (res r = Raised e ->
   vision_encoder self vision_x = Raised e \/
   exists v, vision_encoder self vision_x = Returned v /\
             (lm_on v ls).1 = Raised e).
Proof.
  intros r. subst r.
  split; [apply forward_vision_raised|].
  split; [intros v; apply forward_lm_raised|].
  intros Hres.
  destruct (forward_cases ls) as [[e' Hv]|[(v & e' & Hv & Hl)|(v & o & Hv & Hl)]].
  - rewrite (forward_vision_raised _ _ Hv) in Hres. cbn in Hres.
    left. congruence.
  - rewrite (forward_lm_raised _ _ _ Hv Hl) in Hres. cbn in Hres.
    right. exists v. split; [done|]. congruence.
  - rewrite (forward_returned _ _ _ Hv Hl) in Hres. discriminate.
Qed.

End RunsOfForward.

(** ** Runs of [generate] *)

Section RunsOfGenerate.
Variables (vision_x lang_x : Tensor) (max_length eoc_token_id : Z)
          (attention_mask : option Tensor)
          (num_beams : Z) (temperature : Float) (top_k : Z) (top_p : Float)
          (no_repeat_ngram_size : Z) (length_penalty : Float)
          (num_return_sequences : Z) (do_sample early_stopping : bool).

Local Abbreviation gen :=
  (generate self vision_x lang_x max_length eoc_token_id attention_mask
            num_beams temperature top_k top_p no_repeat_ngram_size
            length_penalty num_return_sequences do_sample early_stopping).

(** The keyword arguments written at lines 68-79. *)
Local Abbreviation kwargs :=
  {| kw_attention_mask := attention_mask;
     kw_max_length := max_length;
     kw_eos_token_id := eoc_token_id;
     kw_num_beams := num_beams;
     kw_temperature := temperature;
     kw_top_k := top_k;
     kw_top_p := top_p;
     kw_no_repeat_ngram_size := no_repeat_ngram_size;
     kw_length_penalty := length_penalty;
     kw_num_return_sequences := num_return_sequences;
     kw_do_sample := do_sample;
     kw_early_stopping := early_stopping |}.

(** The [condition] calls of the loop on [n] layers. *)
Local Abbreviation condition_calls n x :=
  ((fun layer => CallCondition layer x) <$> seq 0 n).

Lemma generate_vision_raised (ls : Layers) (e : Exn) :
  vision_encoder self vision_x = Raised e ->
  gen ls = Run (Raised e) ls [CallVisionEncoder vision_x].
Proof. intros Hv. run_method. rewrite Hv. reflexivity. Qed.

Lemma generate_resampler_raised (ls : Layers) (v : VisionOutput) (e : Exn) :
  vision_encoder self vision_x = Returned v ->
  perceiver_resampler (lang_encoder self) (last_hidden_state v) = Raised e ->
  gen ls =
  Run (Raised e) ls
      [CallVisionEncoder vision_x;
       CallPerceiverResampler (last_hidden_state v)].
Proof. intros Hv Hr. run_method. rewrite Hv. cbn. rewrite Hr. reflexivity. Qed.

Lemma generate_lm_raised (ls : Layers) (v : VisionOutput) (x : Tensor)
    (e : Exn) :
  vision_encoder self vision_x = Returned v ->
  perceiver_resampler (lang_encoder self) (last_hidden_state v) = Returned x ->
  lm_generate (lang_encoder self) lang_x kwargs
              (replicate (length ls) (ConditionedOn x)) = Raised e ->
  gen ls =
  Run (Raised e) (replicate (length ls) (ConditionedOn x))
      (CallVisionEncoder vision_x
       :: CallPerceiverResampler (last_hidden_state v)
       :: condition_calls (length ls) x ++ [CallGenerate lang_x kwargs]).
Proof.
  intros Hv Hr Hg. run_method. rewrite Hv. cbn. rewrite Hr.
  rewrite condition_all_layers. cbn. rewrite Hg. reflexivity.
Qed.

Lemma generate_returned (ls : Layers) (v : VisionOutput) (x out : Tensor) :
  vision_encoder self vision_x = Returned v ->
  perceiver_resampler (lang_encoder self) (last_hidden_state v) = Returned x ->
  lm_generate (lang_encoder self) lang_x kwargs
              (replicate (length ls) (ConditionedOn x)) = Returned out ->
  gen ls =
  Run (Returned out) (replicate (length ls) Unconditioned)
      (CallVisionEncoder vision_x
       :: CallPerceiverResampler (last_hidden_state v)
       :: condition_calls (length ls) x
          ++ [CallGenerate lang_x kwargs; CallClearConditionedLayers]).
Proof.
  intros Hv Hr Hg. run_method. rewrite Hv. cbn. rewrite Hr.
  rewrite condition_all_layers. cbn. rewrite Hg.
  rewrite cleared_replicate, length_replicate. reflexivity.
Qed.

(** The possible runs of [generate], by the first module that raises. *)
Lemma generate_cases (ls : Layers) :
  (exists e, vision_encoder self vision_x = Raised e) \/
  (exists v e,
      vision_encoder self vision_x = Returned v /\
      perceiver_resampler (lang_encoder self) (last_hidden_state v) = Raised e) \/
  (exists v x e,
      vision_encoder self vision_x = Returned v /\
      perceiver_resampler (lang_encoder self) (last_hidden_state v) = Returned x /\
      lm_generate (lang_encoder self) lang_x kwargs
                  (replicate (length ls) (ConditionedOn x)) = Raised e) \/
  (exists v x out,
      vision_encoder self vision_x = Returned v /\
      perceiver_resampler (lang_encoder self) (last_hidden_state v) = Returned x /\
      lm_generate (lang_encoder self) lang_x kwargs
                  (replicate (length ls) (ConditionedOn x)) = Returned out).
Proof.
  destruct (vision_encoder self vision_x) as [v|e] eqn:Hv; [|eauto].
  destruct (perceiver_resampler (lang_encoder self) (last_hidden_state v))
    as [x|e] eqn:Hr; [|eauto 7].
  destruct (lm_generate (lang_encoder self) lang_x kwargs
              (replicate (length ls) (ConditionedOn x))) as [out|e] eqn:Hg;
    eauto 12.
Qed.

Lemma generate_returned_inv (ls : Layers) (out : Tensor) :
  res (gen ls) = Returned out ->
  exists v x,
    vision_encoder self vision_x = Returned v /\
    perceiver_resampler (lang_encoder self) (last_hidden_state v) = Returned x /\
    lm_generate (lang_encoder self) lang_x kwargs
                (replicate (length ls) (ConditionedOn x)) = Returned out.
Proof.
  intros Hres.
  destruct (generate_cases ls)
    as [[e Hv]|[(v & e & Hv & Hr)|[(v & x & e & Hv & Hr & Hg)
                                  |(v & x & o & Hv & Hr & Hg)]]].
  - rewrite (generate_vision_raised _ _ Hv) in Hres. discriminate.
  - rewrite (generate_resampler_raised _ _ _ Hv Hr) in Hres. discriminate.
  - rewrite (generate_lm_raised _ _ _ _ Hv Hr Hg) in Hres. discriminate.
  - rewrite (generate_returned _ _ _ _ Hv Hr Hg) in Hres. cbn in Hres.
    exists v, x. split; [done|]. split; [done|]. congruence.
Qed.

Lemma filter_condition_calls (n : nat) (x : Tensor) :
  List.filter is_condition_call (condition_calls n x) = condition_calls n x /\
  List.filter is_resampler_call (condition_calls n x) = [] /\
  List.filter is_generate_call (condition_calls n x) = [].
Proof.
  induction (seq 0 n) as [|layer layers [IHc [IHr IHg]]]; [done|].
  cbn. rewrite IHc, IHr, IHg. done.
Qed.

(** C3. For every input on which the vision encoder, the resampler and the
    generation routine return, [generate] makes exactly these calls, in this
    order: the vision encoder on [vision_x]; the Perceiver resampler on the
    encoder's [last_hidden_state]; [condition] on every decoder layer with
    the resampled tensor; the language model's generation routine, once;
    [clear_conditioned_layers].  It returns the routine's output as it is,
    and the layers are left cleared. *)
Theorem generate_steps (ls : Layers) (v : VisionOutput) (x out : Tensor) :
  vision_encoder self vision_x = Returned v ->
  perceiver_resampler (lang_encoder self) (last_hidden_state v) = Returned x ->
  lm_generate (lang_encoder self) lang_x kwargs
              (replicate (length ls) (ConditionedOn x)) = Returned out ->
  let r := generate self vision_x lang_x max_length eoc_token_id
             attention_mask num_beams temperature top_k top_p
             no_repeat_ngram_size length_penalty num_return_sequences
             do_sample early_stopping ls in
  calls r =
    CallVisionEncoder vision_x
    :: CallPerceiverResampler (last_hidden_state v)
    :: condition_calls (length ls) x
       ++ [CallGenerate lang_x kwargs; CallClearConditionedLayers] /\
  res r = Returned out /\
  layers_after r = replicate (length ls) Unconditioned.
Proof.
  intros Hv Hr Hg r. subst r.
  rewrite (generate_returned _ _ _ _ Hv Hr Hg). done.
Qed.

(** C5. Whenever [generate] gets as far as the generation routine, what it
    returns or raises is what the routine returns or raises when applied to
    [lang_x] and to keyword arguments that are, one by one, the values
    [generate] received under the same names, with [eos_token_id] set to
    [eoc_token_id]; and this is the only call of the routine in the run. *)
Theorem generate_passes_hyperparameters (ls : Layers) (v : VisionOutput)
    (x : Tensor) :
  vision_encoder self vision_x = Returned v ->
  perceiver_resampler (lang_encoder self) (last_hidden_state v) = Returned x ->
  let received :=
    {| kw_attention_mask := attention_mask;
       kw_max_length := max_length;
       kw_eos_token_id := eoc_token_id;
       kw_num_beams := num_beams;
       kw_temperature := temperature;
       kw_top_k := top_k;
       kw_top_p := top_p;
       kw_no_repeat_ngram_size := no_repeat_ngram_size;
       kw_length_penalty := length_penalty;
       kw_num_return_sequences := num_return_sequences;
       kw_do_sample := do_sample;
       kw_early_stopping := early_stopping |} in
  let r := generate self vision_x lang_x max_length eoc_token_id
             attention_mask num_beams temperature top_k top_p
             no_repeat_ngram_size length_penalty num_return_sequences
             do_sample early_stopping ls in
  res r =
    lm_generate (lang_encoder self) lang_x received
                (replicate (length ls) (ConditionedOn x)) /\
  List.filter is_generate_call (calls r) = [CallGenerate lang_x received].
Proof.
  intros Hv Hr received r. subst received r.
  destruct (filter_condition_calls (length ls) x) as (_ & _ & Hc).
  destruct (lm_generate (lang_encoder self) lang_x kwargs
              (replicate (length ls) (ConditionedOn x))) as [out|e] eqn:Hg.
  - rewrite (generate_returned _ _ _ _ Hv Hr Hg).
    cbn. rewrite List.filter_app, Hc. done.
  - rewrite (generate_lm_raised _ _ _ _ Hv Hr Hg).
    cbn. rewrite List.filter_app, Hc. done.
Qed.

(** C10. In every call of [generate] that gets past the resampler, the
    resampler is called once, [condition] is called once on each decoder
    layer, in the order of the layers and each time with the one tensor the
    resampler returned, and the generation routine runs on layers that all
    hold that tensor. *)
Theorem generate_conditions_every_layer (ls : Layers) (v : VisionOutput)
    (x : Tensor) :
  vision_encoder self vision_x = Returned v ->
  perceiver_resampler (lang_encoder self) (last_hidden_state v) = Returned x ->
  let r := generate self vision_x lang_x max_length eoc_token_id
             attention_mask num_beams temperature top_k top_p
             no_repeat_ngram_size length_penalty num_return_sequences
             do_sample early_stopping ls in
  List.filter is_resampler_call (calls r) =
    [CallPerceiverResampler (last_hidden_state v)] /\
  List.filter is_condition_call (calls r) =
    (fun layer => CallCondition layer x) <$> seq 0 (length ls) /\
  res r =
    lm_generate (lang_encoder self) lang_x kwargs
                (replicate (length ls) (ConditionedOn x)).
Proof.
  intros Hv Hr r. subst r.
  destruct (filter_condition_calls (length ls) x) as (Hc & Hp & _).
  destruct (lm_generate (lang_encoder self) lang_x kwargs
              (replicate (length ls) (ConditionedOn x))) as [out|e] eqn:Hg.
  - rewrite (generate_returned _ _ _ _ Hv Hr Hg).
    cbn. rewrite !List.filter_app, Hc, Hp. cbn. rewrite app_nil_r. done.
  - rewrite (generate_lm_raised _ _ _ _ Hv Hr Hg).
    cbn. rewrite !List.filter_app, Hc, Hp. cbn. rewrite app_nil_r. done.
Qed.

(** X1. [generate] adds no check, wrapping, retry or recovery of its own.
    When the vision encoder raises [e], [generate] raises [e] after that one
    call; when the resampler raises [e], it raises [e] after these two
    calls; in both cases the layers are as they were found.  When the
    generation routine raises [e], it raises [e] with the layers conditioned
    and not cleared.  Whenever [generate] raises, the exception is the one
    raised by one of the three. *)
Theorem generate_propagates_errors (ls : Layers) (e : Exn) :
  let r := generate self vision_x lang_x max_length eoc_token_id
             attention_mask num_beams temperature top_k top_p
             no_repeat_ngram_size length_penalty num_return_sequences
             do_sample early_stopping ls in
  (vision_encoder self vision_x = Raised e ->
   r = Run (Raised e) ls [CallVisionEncoder vision_x]) /\
  (forall v,
      vision_encoder self vision_x = Returned v ->
      perceiver_resampler (lang_encoder self) (last_hidden_state v)
        = Raised e ->
      r = Run (Raised e) ls
              [CallVisionEncoder vision_x;
               CallPerceiverResampler (last_hidden_state v)]) /\
  (forall v x,
      vision_encoder self vision_x = Returned v ->
      perceiver_resampler (lang_encoder self) (last_hidden_state v)
        = Returned x ->
      lm_generate (lang_encoder self) lang_x kwargs
                  (replicate (length ls) (ConditionedOn x)) = Raised e ->
      r = Run (Raised e) (replicate (length ls) (ConditionedOn x))
              (CallVisionEncoder vision_x
               :: CallPerceiverResampler (last_hidden_state v)
               :: condition_calls (length ls) x
                  ++ [CallGenerate lang_x kwargs])) /\
  (res r = Raised e ->
   vision_encoder self vision_x = Raised e \/
   (exists v,
       vision_encoder self vision_x = Returned v /\
       perceiver_resampler (lang_encoder self) (last_hidden_state v)
         = Raised e) \/
   (exists v x,
       vision_encoder self vision_x = Returned v /\
       perceiver_resampler (lang_encoder self) (last_hidden_state v)
         = Returned x /\
       lm_generate (lang_encoder self) lang_x kwargs
                   (replicate (length ls) (ConditionedOn x)) = Raised e)).
Proof.
  intros r. subst r.
  split; [apply generate_vision_raised|].
  split; [intros v; apply generate_resampler_raised|].
  split; [intros v x; apply generate_lm_raised|].
  intros Hres.
  destruct (generate_cases ls)
    as [[e' Hv]|[(v & e' & Hv & Hr)|[(v & x & e' & Hv & Hr & Hg)
                                    |(v & x & o & Hv & Hr & Hg)]]].
  - rewrite (generate_vision_raised _ _ Hv) in Hres. cbn in Hres.
    left. congruence.
  - rewrite (generate_resampler_raised _ _ _ Hv Hr) in Hres. cbn in Hres.
    right. left. exists v. split; [done|]. congruence.
  - rewrite (generate_lm_raised _ _ _ _ Hv Hr Hg) in Hres. cbn in Hres.
    right. right. exists v, x. split; [done|]. split; [done|]. congruence.
  - rewrite (generate_returned _ _ _ _ Hv Hr Hg) in Hres. discriminate.
Qed.

(** What a run of [generate] leaves on the layers, by how far it got. *)
Lemma generate_layers_after (ls : Layers) :
  (List.filter is_generate_call (calls (gen ls)) = [] /\
   layers_after (gen ls) = ls) \/
  (List.filter is_generate_call (calls (gen ls))
     = [CallGenerate lang_x kwargs] /\
   exists c, layers_after (gen ls) = replicate (length ls) c).
Proof.
  destruct (generate_cases ls)
    as [[e Hv]|[(v & e & Hv & Hr)|[(v & x & e & Hv & Hr & Hg)
                                  |(v & x & o & Hv & Hr & Hg)]]].
  - left. rewrite (generate_vision_raised _ _ Hv). done.
  - left. rewrite (generate_resampler_raised _ _ _ Hv Hr). done.
  - right. rewrite (generate_lm_raised _ _ _ _ Hv Hr Hg).
    destruct (filter_condition_calls (length ls) x) as (_ & _ & Hc).
    cbn. rewrite List.filter_app, Hc. eauto.
  - right. rewrite (generate_returned _ _ _ _ Hv Hr Hg).
    destruct (filter_condition_calls (length ls) x) as (_ & _ & Hc).
    cbn. rewrite List.filter_app, Hc. eauto.
Qed.

Lemma generate_keeps_layer_count (ls : Layers) :
  length (layers_after (gen ls)) = length ls.
Proof.
  destruct (generate_layers_after ls) as [[_ ->]|[_ [c ->]]]; [done|].
  apply length_replicate.
Qed.

(** X2. What [generate] returns or raises, and the calls it makes, do not
    depend on what the layers held before the call, only on how many there
    are.  Once it has reached the generation routine the layers it leaves do
    not depend on it either; before that point it leaves the layers as it
    found them. *)
Theorem generate_forgets_previous_conditioning (ls1 ls2 : Layers) :
  length ls1 = length ls2 ->
  let r1 := generate self vision_x lang_x max_length eoc_token_id
              attention_mask num_beams temperature top_k top_p
              no_repeat_ngram_size length_penalty num_return_sequences
              do_sample early_stopping ls1 in
  let r2 := generate self vision_x lang_x max_length eoc_token_id
              attention_mask num_beams temperature top_k top_p
              no_repeat_ngram_size length_penalty num_return_sequences
              do_sample early_stopping ls2 in
  res r1 = res r2 /\
  calls r1 = calls r2 /\
  (List.filter is_generate_call (calls r1) <> [] ->
   layers_after r1 = layers_after r2) /\
  (List.filter is_generate_call (calls r1) = [] ->
   layers_after r1 = ls1 /\ layers_after r2 = ls2).
Proof.
  intros Hlen r1 r2. subst r1 r2.
  destruct (generate_cases ls1)
    as [[e Hv]|[(v & e & Hv & Hr)|[(v & x & e & Hv & Hr & Hg)
                                  |(v & x & o & Hv & Hr & Hg)]]].
  - rewrite !(generate_vision_raised _ _ Hv). cbn. done.
  - rewrite !(generate_resampler_raised _ _ _ Hv Hr). cbn. done.
  - rewrite (generate_lm_raised ls1 _ _ _ Hv Hr Hg).
    rewrite Hlen in Hg.
    rewrite (generate_lm_raised ls2 _ _ _ Hv Hr Hg), Hlen.
    destruct (filter_condition_calls (length ls2) x) as (_ & _ & Hc).
    cbn. rewrite List.filter_app, Hc. cbn.
    split; [done|]. split; [done|]. split; [done|]. discriminate.
  - rewrite (generate_returned ls1 _ _ _ Hv Hr Hg).
    rewrite Hlen in Hg.
    rewrite (generate_returned ls2 _ _ _ Hv Hr Hg), Hlen.
    destruct (filter_condition_calls (length ls2) x) as (_ & _ & Hc).
    cbn. rewrite List.filter_app, Hc. cbn.
    split; [done|]. split; [done|]. split; [done|]. discriminate.
Qed.

End RunsOfGenerate.

(** ** Conditioning across calls *)

(** C1. When a call of [forward] or [generate] returns, its last call on the
    language model was [clear_conditioned_layers], every decoder layer is
    unconditioned, and no layer holds a tensor for a later call to see. *)
Theorem successful_call_leaves_layers_unconditioned (c : method_call)
    (ls : Layers) (value : ModelOutput + Tensor) :
  res (call_method self c ls) = Returned value ->
  last (calls (call_method self c ls)) = Some CallClearConditionedLayers /\
  Forall (fun l => l = Unconditioned) (layers_after (call_method self c ls)) /\
  forall x, ConditionedOn x ∉ layers_after (call_method self c ls).
Proof.
  intros Hres.
  assert (Hgoal :
    last (calls (call_method self c ls)) = Some CallClearConditionedLayers /\
    Forall (fun l => l = Unconditioned)
           (layers_after (call_method self c ls))).
  { destruct c; unfold call_method in *; rewrite bind_mret_run in *;
      cbn [res calls layers_after] in *.
    - destruct (res (forward self vision_x lang_x attention_mask labels ls))
        as [out|e] eqn:Hfwd; [|discriminate].
      apply forward_returned_inv in Hfwd as (v & Hv & Hl).
      rewrite (forward_returned _ _ _ _ _ _ _ Hv Hl). cbn.
      split; [done|]. apply Forall_unconditioned_cleared.
    - destruct (res (generate self vision_x lang_x max_length eoc_token_id
                       attention_mask num_beams temperature top_k top_p
                       no_repeat_ngram_size length_penalty
                       num_return_sequences do_sample early_stopping ls))
        as [out|e] eqn:Hgen; [|discriminate].
      apply generate_returned_inv in Hgen as (v & x & Hv & Hr & Hg).
      rewrite (generate_returned _ _ _ _ _ _ _ _ _ _ _ _ _ _ _ _ _ _
                 Hv Hr Hg).
      cbn [res calls layers_after].
      split; [|apply Forall_unconditioned_replicate].
      rewrite !last_cons, last_app. done. }
  destruct Hgoal as [Hlast Hall]. split; [done|]. split; [done|].
  intros x. apply unconditioned_holds_no_tensor, Hall.
Qed.

(** C9. On the same image, [forward] applies the language model's
    [__call__] to the vision encoder's [last_hidden_state] as it is (what
    [forward] returns or raises is the outcome of that application) and
    never calls the Perceiver resampler, whatever the resampler would do;
    [generate] calls the resampler on that [last_hidden_state], conditions
    every layer on the tensor the resampler returned, and what it returns or
    raises is the outcome of the generation routine on layers holding that
    tensor. *)
Theorem forward_raw_generate_resampled
    (vision_x lang_x : Tensor) (attention_mask labels : option Tensor)
    (max_length eoc_token_id num_beams : Z) (temperature : Float) (top_k : Z)
    (top_p : Float) (no_repeat_ngram_size : Z) (length_penalty : Float)
    (num_return_sequences : Z) (do_sample early_stopping : bool)
    (ls : Layers) (v : VisionOutput) :
  vision_encoder self vision_x = Returned v ->
  let fwd := forward self vision_x lang_x attention_mask labels ls in
  let gen := generate self vision_x lang_x max_length eoc_token_id
               attention_mask num_beams temperature top_k top_p
               no_repeat_ngram_size length_penalty num_return_sequences
               do_sample early_stopping ls in
  (res fwd =
     (lm_call (lang_encoder self) (last_hidden_state v) lang_x
              attention_mask labels ls).1 /\
   List.filter (fun c => is_resampler_call c || is_condition_call c)
               (calls fwd) = []) /\
  (forall x,
      perceiver_resampler (lang_encoder self) (last_hidden_state v)
        = Returned x ->
      res gen =
        lm_generate (lang_encoder self) lang_x
          {| kw_attention_mask := attention_mask;
             kw_max_length := max_length;
             kw_eos_token_id := eoc_token_id;
             kw_num_beams := num_beams;
             kw_temperature := temperature;
             kw_top_k := top_k;
             kw_top_p := top_p;
             kw_no_repeat_ngram_size := no_repeat_ngram_size;
             kw_length_penalty := length_penalty;
             kw_num_return_sequences := num_return_sequences;
             kw_do_sample := do_sample;
             kw_early_stopping := early_stopping |}
          (replicate (length ls) (ConditionedOn x)) /\
      List.filter is_resampler_call (calls gen) =
        [CallPerceiverResampler (last_hidden_state v)] /\
      List.filter is_condition_call (calls gen) =
        (fun layer => CallCondition layer x) <$> seq 0 (length ls)).
Proof.
  intros Hv fwd gen. split.
  - subst fwd.
    destruct (lm_call (lang_encoder self) (last_hidden_state v) lang_x
                attention_mask labels ls).1 as [out|e] eqn:Hl.
    + rewrite (forward_returned _ _ _ _ _ _ _ Hv Hl). done.
    + rewrite (forward_lm_raised _ _ _ _ _ _ _ Hv Hl). done.
  - intros x Hr. subst gen.
    destruct (filter_condition_calls (length ls) x) as (Hc & Hp & _).
    match goal with
    | |- res _ = ?routine /\ _ => destruct routine as [out|e] eqn:Hg
    end.
    + rewrite (generate_returned _ _ _ _ _ _ _ _ _ _ _ _ _ _ _ _ _ _
                 Hv Hr Hg).
      cbn. rewrite !List.filter_app, Hc, Hp. cbn. rewrite app_nil_r. done.
    + rewrite (generate_lm_raised _ _ _ _ _ _ _ _ _ _ _ _ _ _ _ _ _ _
                 Hv Hr Hg).
      cbn. rewrite !List.filter_app, Hc, Hp. cbn. rewrite app_nil_r. done.
Qed.

Section AcrossCalls.
Variables (vision_x lang_x : Tensor) (max_length eoc_token_id : Z)
          (attention_mask : option Tensor)
          (num_beams : Z) (temperature : Float) (top_k : Z) (top_p : Float)
          (no_repeat_ngram_size : Z) (length_penalty : Float)
          (num_return_sequences : Z) (do_sample early_stopping : bool).

Local Abbreviation gen :=
  (generate self vision_x lang_x max_length eoc_token_id attention_mask
            num_beams temperature top_k top_p no_repeat_ngram_size
            length_penalty num_return_sequences do_sample early_stopping).

Local Abbreviation kwargs :=
  {| kw_attention_mask := attention_mask;
     kw_max_length := max_length;
     kw_eos_token_id := eoc_token_id;
     kw_num_beams := num_beams;
     kw_temperature := temperature;
     kw_top_k := top_k;
     kw_top_p := top_p;
     kw_no_repeat_ngram_size := no_repeat_ngram_size;
     kw_length_penalty := length_penalty;
     kw_num_return_sequences := num_return_sequences;
     kw_do_sample := do_sample;
     kw_early_stopping := early_stopping |}.

(** C7. On a model whose layer list has the length the language model was
    built with, once a call of [generate] has returned, any call of
    [forward] runs exactly as it does on a model freshly constructed from
    the same two modules: same output or exception, same calls, same layer
    state afterwards. *)
Theorem forward_after_generate_as_on_fresh_model
    (vision_x' lang_x' : Tensor) (attention_mask' labels' : option Tensor)
    (ls : Layers) (out : Tensor) :
  length ls = num_hidden_layers (lang_encoder self) ->
  let r := generate self vision_x lang_x max_length eoc_token_id
             attention_mask num_beams temperature top_k top_p
             no_repeat_ngram_size length_penalty num_return_sequences
             do_sample early_stopping ls in
  res r = Returned out ->
  let fresh := Flamingo_init (vision_encoder self) (lang_encoder self) in
  forward self vision_x' lang_x' attention_mask' labels' (layers_after r) =
  forward fresh.1 vision_x' lang_x' attention_mask' labels' fresh.2.
Proof.
  intros Hlen r Hres fresh. subst r fresh.
  apply generate_returned_inv in Hres as (v & x & Hv & Hr & Hg).
  rewrite (generate_returned _ _ _ _ _ _ _ _ _ _ _ _ _ _ _ _ _ _ Hv Hr Hg).
  cbn [layers_after]. unfold Flamingo_init, init_flamingo. cbn [fst snd].
  rewrite Hlen. destruct self. reflexivity.
Qed.


End AcrossCalls.

(** ** Further properties of the two methods *)

Lemma filter_out_condition_calls (p : call -> bool) (n : nat) (x : Tensor) :
  (forall layer, p (CallCondition layer x) = false) ->
  List.filter p ((fun layer => CallCondition layer x) <$> seq 0 n) = [].
Proof.
  intros Hp. induction (seq 0 n) as [|layer layers IH]; [done|].
  cbn. rewrite Hp. exact IH.
Qed.

Lemma replicate_unconditioned (ls : Layers) :
  Forall (fun l => l = Unconditioned) ls ->
  replicate (length ls) Unconditioned = ls.
Proof.
  induction 1 as [|l ls Hl _ IH]; [done|]. cbn. rewrite IH, Hl. done.
Qed.

(** The run of a method call, by whether it returns. *)
Lemma call_method_outcome (c : method_call) (ls : Layers) :
  (exists e,
      res (call_method self c ls) = Raised e /\
      CallClearConditionedLayers ∉ calls (call_method self c ls)) \/
  (exists value ls',
      res (call_method self c ls) = Returned value /\
      layers_after (call_method self c ls) = cleared ls' /\
      CallClearConditionedLayers ∈ calls (call_method self c ls)).
Proof.
  destruct c; unfold call_method; rewrite bind_mret_run;
    cbn [res calls layers_after].
  - destruct (forward_cases vision_x lang_x attention_mask labels ls)
      as [[e Hv]|[(v & e & Hv & Hl)|(v & o & Hv & Hl)]].
    + left. exists e. rewrite (forward_vision_raised _ _ _ _ _ _ Hv). cbn.
      split; [done|]. rewrite !elem_of_cons, elem_of_nil.
      intros [Hc|[]]; discriminate Hc.
    + left. exists e. rewrite (forward_lm_raised _ _ _ _ _ _ _ Hv Hl). cbn.
      split; [done|]. rewrite !elem_of_cons, elem_of_nil.
      intros [Hc|[Hc|[]]]; discriminate Hc.
    + right.
      exists (inl o),
             (lm_call (lang_encoder self) (last_hidden_state v) lang_x
                      attention_mask labels ls).2.
      rewrite (forward_returned _ _ _ _ _ _ _ Hv Hl). cbn.
      split; [done|]. split; [done|]. rewrite !elem_of_cons. auto.
  - destruct (generate_cases vision_x lang_x max_length eoc_token_id
                attention_mask num_beams temperature top_k top_p
                no_repeat_ngram_size length_penalty num_return_sequences
                do_sample early_stopping ls)
      as [[e Hv]|[(v & e & Hv & Hr)|[(v & x & e & Hv & Hr & Hg)
                                    |(v & x & o & Hv & Hr & Hg)]]].
    + left. exists e.
      rewrite (generate_vision_raised _ _ _ _ _ _ _ _ _ _ _ _ _ _ _ _ Hv).
      cbn. split; [done|]. rewrite !elem_of_cons, elem_of_nil.
      intros [Hc|[]]; discriminate Hc.
    + left. exists e.
      rewrite (generate_resampler_raised _ _ _ _ _ _ _ _ _ _ _ _ _ _ _ _ _
                 Hv Hr).
      cbn. split; [done|]. rewrite !elem_of_cons, elem_of_nil.
      intros [Hc|[Hc|[]]]; discriminate Hc.
    + left. exists e.
      rewrite (generate_lm_raised _ _ _ _ _ _ _ _ _ _ _ _ _ _ _ _ _ _
                 Hv Hr Hg).
      cbn. split; [done|].
      rewrite !elem_of_cons, elem_of_app, list_elem_of_fmap,
        list_elem_of_singleton.
      intros [Hc|[Hc|[(layer & Hc & _)|Hc]]]; discriminate Hc.
    + right. exists (inr o), ls.
      rewrite (generate_returned _ _ _ _ _ _ _ _ _ _ _ _ _ _ _ _ _ _
                 Hv Hr Hg).
      cbn. split; [done|]. split; [symmetry; apply cleared_replicate|].
      rewrite !elem_of_cons, elem_of_app, !elem_of_cons. auto 7.
Qed.

Lemma call_method_keeps_layer_count (c : method_call) (ls : Layers) :
  (forall vision_x lang_x attention_mask labels v,
      c = Forward vision_x lang_x attention_mask labels ->
      vision_encoder self vision_x = Returned v ->
      length (lm_call (lang_encoder self) (last_hidden_state v) lang_x
                      attention_mask labels ls).2 = length ls) ->
  length (layers_after (call_method self c ls)) = length ls.
Proof.
  intros Hpres.
  destruct c; unfold call_method; rewrite bind_mret_run; cbn [layers_after].
  - destruct (forward_cases vision_x lang_x attention_mask labels ls)
      as [[e Hv]|[(v & e & Hv & Hl)|(v & o & Hv & Hl)]].
    + rewrite (forward_vision_raised _ _ _ _ _ _ Hv). done.
    + rewrite (forward_lm_raised _ _ _ _ _ _ _ Hv Hl). cbn.
      apply (Hpres vision_x lang_x attention_mask labels v); done.
    + rewrite (forward_returned _ _ _ _ _ _ _ Hv Hl). cbn.
      rewrite length_cleared.
      apply (Hpres vision_x lang_x attention_mask labels v); done.
  - apply generate_keeps_layer_count.
Qed.

(** The first call of a sequence, then the rest from the layers it left. *)
Lemma call_each_cons (c : method_call) (cs : list method_call) (ls : Layers) :
  call_each self (c :: cs) ls =
  match res (call_method self c ls) with
  | Raised e =>
      Run (Raised e) (layers_after (call_method self c ls))
          (calls (call_method self c ls))
  | Returned value =>
      let rest := call_each self cs (layers_after (call_method self c ls)) in
      Run (match res rest with
           | Returned values => Returned (value :: values)
           | Raised e => Raised e
           end)
          (layers_after rest)
          (calls (call_method self c ls) ++ calls rest)
  end.
Proof.
  cbn [call_each].
  destruct (res (call_method self c ls)) as [value|e] eqn:Hc.
  - rewrite (bind_returned _ _ _ value Hc), bind_mret_run. done.
  - rewrite (bind_raised _ _ _ e Hc). done.
Qed.

(** When the language model keeps the number of layers, a returning sequence
    of calls started on unconditioned layers ends on the same layers. *)
Lemma call_each_restores_unconditioned (cs : list method_call) :
  (forall x lang_x attention_mask labels ls,
      length (lm_call (lang_encoder self) x lang_x attention_mask labels ls).2
      = length ls) ->
  forall (ls : Layers) (values : list (ModelOutput + Tensor)),
    Forall (fun l => l = Unconditioned) ls ->
    res (call_each self cs ls) = Returned values ->
    layers_after (call_each self cs ls) = ls.
Proof.
  intros Hpres. induction cs as [|c cs IH]; intros ls values Hls Hres.
  - done.
  - rewrite call_each_cons in *.
    destruct (call_method_outcome c ls)
      as [(e & Hc & _)|(value & ls' & Hc & Hafter & _)];
      rewrite Hc in *; [discriminate|].
    cbn [res layers_after] in *.
    assert (Hsame : layers_after (call_method self c ls) = ls).
    { assert (Hlen : length ls' = length ls).
      { rewrite <- (length_cleared ls'), <- Hafter.
        apply call_method_keeps_layer_count. intros. apply Hpres. }
      rewrite Hafter, cleared_replicate, Hlen.
      apply replicate_unconditioned, Hls. }
    rewrite Hsame in *.
    destruct (res (call_each self cs ls)) as [values'|e] eqn:Hrest;
      [|discriminate].
    apply (IH ls values'); done.
Qed.

(** X3. [clear_conditioned_layers] is called in exactly the runs that
    return: a call of [forward] or [generate] that raises has not cleared the
    layers, and one that returns has. *)
Theorem layers_cleared_exactly_on_return (c : method_call) (ls : Layers) :
  CallClearConditionedLayers ∈ calls (call_method self c ls) <->
  exists value, res (call_method self c ls) = Returned value.
Proof.
  destruct (call_method_outcome c ls)
    as [(e & Hc & Hclear)|(value & ls' & Hc & _ & Hclear)].
  - split; [done|]. intros [value Hres]. congruence.
  - split; [eauto|done].
Qed.

(** X5. After any sequence of [forward] and [generate] calls on one instance
    that all return, there is one value per call and, if at least one call
    was made, every decoder layer is unconditioned. *)
Theorem returning_calls_leave_layers_unconditioned
    (cs : list method_call) (ls : Layers)
    (values : list (ModelOutput + Tensor)) :
  cs <> [] ->
  res (call_each self cs ls) = Returned values ->
  length values = length cs /\
  Forall (fun l => l = Unconditioned) (layers_after (call_each self cs ls)).
Proof.
  revert ls values.
  induction cs as [|c cs IH]; intros ls values Hne Hres; [done|].
  rewrite call_each_cons in *.
  destruct (call_method_outcome c ls)
    as [(e & Hc & _)|(value & ls' & Hc & Hafter & _)];
    rewrite Hc in *; [discriminate|].
  cbn [res layers_after] in *.
  destruct (res (call_each self cs (layers_after (call_method self c ls))))
    as [values'|e] eqn:Hrest; [|discriminate].
  injection Hres as <-.
  destruct cs as [|c' cs'].
  - cbn in Hrest. injection Hrest as <-. cbn.
    split; [done|]. rewrite Hafter. apply Forall_unconditioned_cleared.
  - destruct (IH _ _ ltac:(discriminate) Hrest) as [Hlen Hall].
    split; [cbn; f_equal; exact Hlen|exact Hall].
Qed.

(** X7. Every run of [forward] and of [generate], returning or raising,
    starts with the vision encoder on [vision_x] and calls it exactly
    once. *)
Theorem vision_encoder_runs_once_first
    (vision_x lang_x : Tensor) (attention_mask labels : option Tensor)
    (max_length eoc_token_id num_beams : Z) (temperature : Float) (top_k : Z)
    (top_p : Float) (no_repeat_ngram_size : Z) (length_penalty : Float)
    (num_return_sequences : Z) (do_sample early_stopping : bool)
    (ls : Layers) :
  (exists rest,
      calls (forward self vision_x lang_x attention_mask labels ls)
        = CallVisionEncoder vision_x :: rest /\
      List.filter is_vision_encoder_call rest = []) /\
  (exists rest,
      calls (generate self vision_x lang_x max_length eoc_token_id
               attention_mask num_beams temperature top_k top_p
               no_repeat_ngram_size length_penalty num_return_sequences
               do_sample early_stopping ls)
        = CallVisionEncoder vision_x :: rest /\
      List.filter is_vision_encoder_call rest = []).
Proof.
  split.
  - destruct (forward_cases vision_x lang_x attention_mask labels ls)
      as [[e Hv]|[(v & e & Hv & Hl)|(v & o & Hv & Hl)]].
    + rewrite (forward_vision_raised _ _ _ _ _ _ Hv). eexists. done.
    + rewrite (forward_lm_raised _ _ _ _ _ _ _ Hv Hl). eexists. done.
    + rewrite (forward_returned _ _ _ _ _ _ _ Hv Hl). eexists. done.
  - destruct (generate_cases vision_x lang_x max_length eoc_token_id
                attention_mask num_beams temperature top_k top_p
                no_repeat_ngram_size length_penalty num_return_sequences
                do_sample early_stopping ls)
      as [[e Hv]|[(v & e & Hv & Hr)|[(v & x & e & Hv & Hr & Hg)
                                    |(v & x & o & Hv & Hr & Hg)]]].
    + rewrite (generate_vision_raised _ _ _ _ _ _ _ _ _ _ _ _ _ _ _ _ Hv).
      eexists. done.
    + rewrite (generate_resampler_raised _ _ _ _ _ _ _ _ _ _ _ _ _ _ _ _ _
                 Hv Hr).
      eexists. done.
    + rewrite (generate_lm_raised _ _ _ _ _ _ _ _ _ _ _ _ _ _ _ _ _ _
                 Hv Hr Hg).
      eexists. split; [done|].
      cbn. rewrite List.filter_app, filter_out_condition_calls by done. done.
    + rewrite (generate_returned _ _ _ _ _ _ _ _ _ _ _ _ _ _ _ _ _ _
                 Hv Hr Hg).
      eexists. split; [done|].
      cbn. rewrite List.filter_app, filter_out_condition_calls by done. done.
Qed.

End Properties.

(** ** The constructor *)

Section Constructor.
Context `{Torch}.

(** X8. A model built by [__init__] from a language model whose own call
    keeps the number of layers is, after any sequence of [forward] and
    [generate] calls that all return, in the layer state it was constructed
    in. *)
Theorem constructed_model_stays_fresh
    (vision : Tensor -> outcome VisionOutput) (lm : OPTForCausalLMFlamingo)
    (cs : list method_call) (values : list (ModelOutput + Tensor)) :
  (forall x lang_x attention_mask labels ls,
      length (lm_call lm x lang_x attention_mask labels ls).2 = length ls) ->
  let model := (Flamingo_init vision lm).1 in
  let fresh := (Flamingo_init vision lm).2 in
  res (call_each model cs fresh) = Returned values ->
  layers_after (call_each model cs fresh) = fresh.
Proof.
  intros Hpres model fresh Hres.
  apply (call_each_restores_unconditioned model cs Hpres fresh values);
    [|done].
  apply Forall_unconditioned_replicate.
Qed.

End Constructor.

(** * The properties on the concrete instance *)

#[local] Existing Instance Demo.torch.
#[local] Canonical Structure Demo.torch.

Lemma successful_call_leaves_layers_unconditioned_witness :
  let c := Demo.Generate_default 3 5 20 2 in
  let stale := [ConditionedOn 9; Unconditioned] in
  res (call_method Demo.model c stale) = Returned (inr 37) /\
  last (calls (call_method Demo.model c stale)) =
    Some CallClearConditionedLayers /\
  Forall (fun l => l = Unconditioned)
         (layers_after (call_method Demo.model c stale)) /\
  forall x, ConditionedOn x ∉ layers_after (call_method Demo.model c stale).
Proof.
  split; [reflexivity|].
  apply (successful_call_leaves_layers_unconditioned Demo.model
           (Demo.Generate_default 3 5 20 2)
           [ConditionedOn 9; Unconditioned] (inr 37)).
  reflexivity.
Defined.

Lemma forward_steps_witness :
  vision_encoder Demo.model 3 = Returned 30 /\
  (lm_call (lang_encoder Demo.model) 31 5 None None Demo.fresh).1
    = Returned 67 /\
  calls (forward Demo.model 3 5 None None Demo.fresh) =
    [CallVisionEncoder 3; CallLangEncoder 31 5 None None;
     CallClearConditionedLayers] /\
  res (forward Demo.model 3 5 None None Demo.fresh) = Returned 67 /\
  layers_after (forward Demo.model 3 5 None None Demo.fresh) =
    [Unconditioned; Unconditioned].
Proof.
  split; [reflexivity|]. split; [reflexivity|].
  apply (forward_steps Demo.model 3 5 None None Demo.fresh 30 67);
    reflexivity.
Defined.

Lemma generate_steps_witness :
  calls (Demo.generate_default 3 5 20 2 Demo.fresh) =
    [CallVisionEncoder 3; CallPerceiverResampler 31;
     CallCondition 0 15; CallCondition 1 15;
     CallGenerate 5 {| kw_attention_mask := None; kw_max_length := 20;
                       kw_eos_token_id := 2; kw_num_beams := 1;
                       kw_temperature := 1%Q; kw_top_k := 0;
                       kw_top_p := 1%Q; kw_no_repeat_ngram_size := 0;
                       kw_length_penalty := 1%Q;
                       kw_num_return_sequences := 1;
                       kw_do_sample := false; kw_early_stopping := false |};
     CallClearConditionedLayers] /\
  res (Demo.generate_default 3 5 20 2 Demo.fresh) = Returned 37 /\
  layers_after (Demo.generate_default 3 5 20 2 Demo.fresh) =
    [Unconditioned; Unconditioned].
Proof.
  apply (generate_steps Demo.model 3 5 20 2 None 1 1%Q 0 1%Q 0 1%Q 1
           false false Demo.fresh 30 15 37); reflexivity.
Defined.

Lemma generate_passes_hyperparameters_witness :
  let kw := {| kw_attention_mask := Some 7; kw_max_length := 20;
               kw_eos_token_id := 2; kw_num_beams := 3;
               kw_temperature := (7 # 10)%Q; kw_top_k := 50;
               kw_top_p := (9 # 10)%Q; kw_no_repeat_ngram_size := 2;
               kw_length_penalty := 1%Q; kw_num_return_sequences := 1;
               kw_do_sample := true; kw_early_stopping := true |} in
  let r := generate Demo.model 3 5 20 2 (Some 7) 3 (7 # 10)%Q 50 (9 # 10)%Q
             2 1%Q 1 true true Demo.fresh in
  res r = Demo.hf_generate 5 kw [ConditionedOn 15; ConditionedOn 15] /\
  res r = Returned 37 /\
  List.filter is_generate_call (calls r) = [CallGenerate 5 kw].
Proof.
  intros kw r.
  destruct (generate_passes_hyperparameters Demo.model 3 5 20 2 (Some 7) 3
              (7 # 10)%Q 50 (9 # 10)%Q 2 1%Q 1 true true Demo.fresh 30 15
              eq_refl eq_refl) as [Hres Hcalls].
  split; [exact Hres|]. split; [|exact Hcalls].
  exact (eq_trans Hres eq_refl).
Defined.

Lemma forward_propagates_errors_witness :
  (vision_encoder Demo.model (-1) = Raised "vision: bad image"%string /\
   forward Demo.model (-1) 5 None None Demo.fresh =
     Run (Raised "vision: bad image"%string) Demo.fresh
         [CallVisionEncoder (-1)]) /\
  (vision_encoder Demo.model 3 = Returned 30 /\
   (lm_call (lang_encoder Demo.model) 31 (-1) None None Demo.fresh).1
     = Raised "lm: index out of range"%string /\
   res (forward Demo.model 3 (-1) None None Demo.fresh)
     = Raised "lm: index out of range"%string /\
   calls (forward Demo.model 3 (-1) None None Demo.fresh) =
     [CallVisionEncoder 3; CallLangEncoder 31 (-1) None None]).
Proof.
  split.
  - split; [reflexivity|].
    apply (forward_propagates_errors Demo.model (-1) 5 None None Demo.fresh
             "vision: bad image"%string).
    reflexivity.
  - split; [reflexivity|]. split; [reflexivity|].
    destruct (forward_propagates_errors Demo.model 3 (-1) None None
                Demo.fresh "lm: index out of range"%string)
      as (_ & Hlm & _).
    rewrite (Hlm 30 eq_refl eq_refl). split; reflexivity.
Defined.

Lemma forward_raw_generate_resampled_witness :
  let fwd := forward Demo.model 3 5 None None Demo.fresh in
  let gen := Demo.generate_default 3 5 20 2 Demo.fresh in
  (res fwd = (Demo.distributing_lm_call 31 5 None None Demo.fresh).1 /\
   res fwd = Returned 67) /\
  (res gen = Returned 37 /\
   List.filter is_resampler_call (calls gen) = [CallPerceiverResampler 31] /\
   List.filter is_condition_call (calls gen) =
     [CallCondition 0 15; CallCondition 1 15]).
Proof.
  destruct (forward_raw_generate_resampled Demo.model 3 5 None None 20 2 1
              1%Q 0 1%Q 0 1%Q 1 false false Demo.fresh 30 eq_refl)
    as [[Hfwd _] Hgen].
  intros fwd gen. subst fwd gen. unfold Demo.generate_default. split.
  - split; [exact Hfwd|]. exact (eq_trans Hfwd eq_refl).
  - destruct (Hgen 15 eq_refl) as (Hres & Hresampler & Hcondition).
    split; [|split; [exact Hresampler|exact Hcondition]].
    exact (eq_trans Hres eq_refl).
Defined.

Lemma generate_conditions_every_layer_witness :
  let gen := Demo.generate_default 3 5 20 2
               [Unconditioned; ConditionedOn 9; Unconditioned] in
  List.filter is_resampler_call (calls gen) = [CallPerceiverResampler 31] /\
  List.filter is_condition_call (calls gen) =
    [CallCondition 0 15; CallCondition 1 15; CallCondition 2 15] /\
  res gen = Returned 52.
Proof.
  apply (generate_conditions_every_layer Demo.model 3 5 20 2 None 1 1%Q 0
           1%Q 0 1%Q 1 false false
           [Unconditioned; ConditionedOn 9; Unconditioned] 30 15);
    reflexivity.
Defined.

Lemma forward_after_generate_as_on_fresh_model_witness :
  let stale := [ConditionedOn 9; ConditionedOn 9] in
  res (Demo.generate_default 3 5 20 2 stale) = Returned 37 /\
  forward Demo.model 4 6 None None
          (layers_after (Demo.generate_default 3 5 20 2 stale)) =
  forward Demo.model 4 6 None None Demo.fresh.
Proof.
  split; [reflexivity|].
  apply (forward_after_generate_as_on_fresh_model Demo.model 3 5 20 2 None 1
           1%Q 0 1%Q 0 1%Q 1 false false 4 6 None None
           [ConditionedOn 9; ConditionedOn 9] 37); reflexivity.
Defined.


Lemma generate_propagates_errors_witness :
  Demo.generate_default (-1) 5 20 2 Demo.fresh =
    Run (Raised "vision: bad image"%string) Demo.fresh
        [CallVisionEncoder (-1)] /\
  generate Demo.model_misshapen 3 5 20 2 None 1 1%Q 0 1%Q 0 1%Q 1 false false
           [ConditionedOn 9; Unconditioned] =
    Run (Raised "resampler: bad shape"%string)
        [ConditionedOn 9; Unconditioned]
        [CallVisionEncoder 3; CallPerceiverResampler 32] /\
  res (Demo.generate_default 3 5 (-1) 2 Demo.fresh)
    = Raised "generate: max_length"%string /\
  layers_after (Demo.generate_default 3 5 (-1) 2 Demo.fresh)
    = [ConditionedOn 15; ConditionedOn 15].
Proof.
  split.
  { apply (generate_propagates_errors Demo.model (-1) 5 20 2 None 1 1%Q 0
             1%Q 0 1%Q 1 false false Demo.fresh "vision: bad image"%string).
    reflexivity. }
  split.
  { destruct (generate_propagates_errors Demo.model_misshapen 3 5 20 2 None
                1 1%Q 0 1%Q 0 1%Q 1 false false
                [ConditionedOn 9; Unconditioned]
                "resampler: bad shape"%string) as (_ & Hr & _).
    exact (Hr 31 eq_refl eq_refl). }
  destruct (generate_propagates_errors Demo.model 3 5 (-1) 2 None 1 1%Q 0
              1%Q 0 1%Q 1 false false Demo.fresh
              "generate: max_length"%string) as (_ & _ & Hg & _).
  unfold Demo.generate_default.
  rewrite (Hg 30 15 eq_refl eq_refl eq_refl). split; reflexivity.
Defined.

Lemma generate_forgets_previous_conditioning_witness :
  let stale := [ConditionedOn 9; Unconditioned] in
  res (Demo.generate_default 3 5 20 2 stale)
    = res (Demo.generate_default 3 5 20 2 Demo.fresh) /\
  calls (Demo.generate_default 3 5 20 2 stale)
    = calls (Demo.generate_default 3 5 20 2 Demo.fresh) /\
  layers_after (Demo.generate_default 3 5 20 2 stale)
    = layers_after (Demo.generate_default 3 5 20 2 Demo.fresh).
Proof.
  destruct (generate_forgets_previous_conditioning Demo.model 3 5 20 2 None
              1 1%Q 0 1%Q 0 1%Q 1 false false
              [ConditionedOn 9; Unconditioned] Demo.fresh eq_refl)
    as (Hres & Hcalls & Hreached & _).
  split; [exact Hres|]. split; [exact Hcalls|].
  apply Hreached. discriminate.
Defined.

Lemma layers_cleared_exactly_on_return_witness :
  CallClearConditionedLayers
    ∈ calls (call_method Demo.model (Forward 3 5 None None) Demo.fresh) /\
  CallClearConditionedLayers
    ∉ calls (call_method Demo.model (Forward 3 (-1) None None) Demo.fresh).
Proof.
  split.
  - apply (layers_cleared_exactly_on_return Demo.model
             (Forward 3 5 None None) Demo.fresh).
    exists (inl 67). reflexivity.
  - intros Hin.
    apply (layers_cleared_exactly_on_return Demo.model
             (Forward 3 (-1) None None) Demo.fresh) in Hin.
    destruct Hin as [value Hres]. discriminate Hres.
Defined.

Lemma returning_calls_leave_layers_unconditioned_witness :
  let cs := [Demo.Generate_default 3 5 20 2; Forward 4 5 None None] in
  let stale := [ConditionedOn 9; Unconditioned] in
  res (call_each Demo.model cs stale) = Returned [inr 37; inl 87] /\
  Forall (fun l => l = Unconditioned)
         (layers_after (call_each Demo.model cs stale)).
Proof.
  split; [reflexivity|].
  apply (returning_calls_leave_layers_unconditioned Demo.model
           [Demo.Generate_default 3 5 20 2; Forward 4 5 None None]
           [ConditionedOn 9; Unconditioned] [inr 37; inl 87]).
  - discriminate.
  - reflexivity.
Defined.

Lemma constructed_model_stays_fresh_witness :
  let cs := [Forward 4 5 None None; Demo.Generate_default 3 5 20 2] in
  res (call_each Demo.model cs Demo.fresh) = Returned [inl 87; inr 37] /\
  layers_after (call_each Demo.model cs Demo.fresh) = Demo.fresh.
Proof.
  split; [reflexivity|].
  apply (constructed_model_stays_fresh Demo.vision Demo.lm
           [Forward 4 5 None None; Demo.Generate_default 3 5 20 2]
           [inl 87; inr 37]).
  - intros x lang_x attention_mask labels ls. cbn. apply length_fmap.
  - reflexivity.
Defined.
